(** * A shallow embedding of [docs/tunein.py]

    The script fetches a user's favourites from the radio directory, walks the
    nested JSON and resolves each favourite to a stream URL.  The model below
    follows the script line by line:

    - JSON values as decoded by [requests]' [.json()] (numbers are kept as
      integers; JSON objects are association lists whose keys are distinct, as
      in a Python dict, in insertion order);
    - the Python operations the script applies to them ([d.get(k)], [d[k]],
      [d[i]], [len], iteration, truthiness, [==] against a string literal),
      each raising where Python raises;
    - the effects of the script as a writer monad with exceptions: the trace
      records printed values and the HTTP requests made, in order, and a run
      either finishes or stops at the first uncaught exception, keeping the
      trace produced so far;
    - the two HTTP endpoints as functions from the identifier placed in the
      URL to the decoded JSON response. *)

From Stdlib Require Import List String Ascii Bool ZArith Lia.
Import ListNotations.
Open Scope string_scope.
Open Scope list_scope.

(** ** JSON values *)

#[local] Set Warnings "-register-all".
Inductive json : Type :=
| JNull : json
| JBool : bool -> json
| JNum : Z -> json
| JStr : string -> json
| JArr : list json -> json
| JObj : list (string * json) -> json.

(** Lookup of a key in a dict (keys are distinct, so the first hit is the
    entry). *)
Fixpoint lookup (k : string) (kvs : list (string * json)) : option json :=
  match kvs with
  | [] => None
  | (k', v) :: rest => if String.eqb k k' then Some v else lookup k rest
  end.

(** Python truthiness of a decoded JSON value. *)
Definition truthy (v : json) : bool :=
  match v with
  | JNull => false
  | JBool b => b
  | JNum z => negb (Z.eqb z 0)
  | JStr s => negb (String.eqb s "")
  | JArr l => match l with [] => false | _ => true end
  | JObj l => match l with [] => false | _ => true end
  end.

(** [v == 'lit'] for a string literal: only a [str] with the same text is
    equal to it. *)
Definition eq_str (v : json) (lit : string) : bool :=
  match v with
  | JStr s => String.eqb s lit
  | _ => false
  end.

(** [s.endswith(suf)] *)
Definition endswith (s suf : string) : bool :=
  (String.length suf <=? String.length s)%nat &&
  String.eqb (substring (String.length s - String.length suf)
                        (String.length suf) s) suf.

(** ** Effects: printing, HTTP requests, exceptions *)

Inductive event : Type :=
| Print : json -> event            (** [print(v)] *)
| ReqStream : json -> event        (** GET Tune.ashx?id={id} *)
| ReqPod : json -> event.          (** GET profiles/{id}/contents *)

(** A computation: the events it produced and its result, [None] when it
    stopped on an uncaught exception. *)
Definition M (A : Type) : Type := (list event * option A)%type.

Definition ret {A} (a : A) : M A := ([], Some a).

Definition raise {A} : M A := ([], None).

Definition bind {A B} (m : M A) (f : A -> M B) : M B :=
  match m with
  | (t, Some a) => let (t', r) := f a in (t ++ t', r)
  | (t, None) => (t, None)
  end.

Notation "x <- m ;; k" := (bind m (fun x => k))
  (at level 61, m at next level, right associativity).
Notation "m ;;; k" := (bind m (fun _ : unit => k))
  (at level 61, right associativity).

Definition emit (e : event) : M unit := ([e], Some tt).

Definition print (v : json) : M unit := emit (Print v).

(** ** Python operations on JSON values *)

(** [d.get(k)]: [None] for a missing key; only dicts have [.get]. *)
Definition py_get (d : json) (k : string) : M json :=
  match d with
  | JObj kvs => match lookup k kvs with Some v => ret v | None => ret JNull end
  | _ => raise
  end.

(** [d[k]] with a string key: KeyError or TypeError outside a dict entry. *)
Definition index_str (d : json) (k : string) : M json :=
  match d with
  | JObj kvs => match lookup k kvs with Some v => ret v | None => raise end
  | _ => raise
  end.

(** [d[i]] with a non-negative integer index. *)
Definition index_int (d : json) (i : nat) : M json :=
  match d with
  | JArr l => match nth_error l i with Some v => ret v | None => raise end
  | JStr s => match String.get i s with
              | Some c => ret (JStr (String c EmptyString))
              | None => raise
              end
  | _ => raise
  end.

(** [len(v)] *)
Definition py_len (v : json) : M nat :=
  match v with
  | JArr l => ret (List.length l)
  | JObj kvs => ret (List.length kvs)
  | JStr s => ret (String.length s)
  | _ => raise
  end.

(** The values a [for] loop over [v] visits: the elements of a list, the keys
    of a dict, the characters of a string. *)
Definition py_iter (v : json) : M (list json) :=
  match v with
  | JArr l => ret l
  | JObj kvs => ret (map (fun kv => JStr (fst kv)) kvs)
  | JStr s => ret (map (fun c => JStr (String c EmptyString))
                       (list_ascii_of_string s))
  | _ => raise
  end.

(** [d.items()] *)
Definition py_items (d : json) : M (list (string * json)) :=
  match d with
  | JObj kvs => ret kvs
  | _ => raise
  end.

(** ** The script *)

Section Script.

(** The decoded responses of the two endpoints, by the identifier put in the
    URL. *)
Variable stream_api : json -> json.
Variable pod_api : json -> json.

(** Lines 39-42: [for stream in stream_data['body']: if stream['media_type']
    == 'mp3': return stream['url']]; [None] when the loop ends. *)
Fixpoint first_mp3 (streams : list json) : M (option json) :=
  match streams with
  | [] => ret None
  | stream :: rest =>
      mt <- index_str stream "media_type" ;;
      if eq_str mt "mp3"
      then u <- index_str stream "url" ;; ret (Some u)
      else first_mp3 rest
  end.

(** [get_stream(id)], lines 36-44; falling off the end returns [None]. *)
Definition get_stream (id : json) : M json :=
  emit (ReqStream id) ;;;
  let stream_data := stream_api id in
  body <- index_str stream_data "body" ;;
  streams <- py_iter body ;;
  found <- first_mp3 streams ;;
  match found with
  | Some u => ret u
  | None =>
      n <- py_len body ;;
      if (0 <? n)%nat
      then s0 <- index_int body 0 ;; index_str s0 "url"
      else ret JNull
  end.

(** [get_pod_info(id)], lines 46-52: the first child of the first item whose
    ["Children"] is truthy; [None] when the loop ends. *)
Fixpoint pod_loop (xs : list json) : M json :=
  match xs with
  | [] => ret JNull
  | x :: rest =>
      children <- py_get x "Children" ;;
      if truthy children
      then ys <- py_iter children ;;
           match ys with
           | y :: _ => index_str y "GuideId"
           | [] => pod_loop rest
           end
      else pod_loop rest
  end.

Definition get_pod_info (id : json) : M json :=
  emit (ReqPod id) ;;;
  let pod_info := pod_api id in
  items <- index_str pod_info "Items" ;;
  xs <- py_iter items ;;
  pod_loop xs.

(** Line 59-62: [next((value for key, value in ite.items()
    if key.endswith('Cell')), None)]. *)
Fixpoint find_cell (kvs : list (string * json)) : json :=
  match kvs with
  | [] => JNull
  | (key, value) :: rest => if endswith key "Cell" then value else find_cell rest
  end.

(** A [for] loop whose body ends normally or with [continue]. *)
Fixpoint for_each {A} (body : A -> M unit) (l : list A) : M unit :=
  match l with
  | [] => ret tt
  | x :: rest => body x ;;; for_each body rest
  end.

(** Lines 75-80: the identifier to resolve, [None] for the [continue] of an
    audiobook. *)
Definition stream_id (content_info id : json) : M (option json) :=
  if truthy content_info
  then ty <- index_str content_info "Type" ;;
       if eq_str ty "Audiobook" then ret None
       else ty2 <- index_str content_info "Type" ;;
            print ty2 ;;;
            ty3 <- index_str content_info "Type" ;;
            if negb (eq_str ty3 "Station")
            then id' <- get_pod_info id ;; ret (Some id')
            else ret (Some id)
  else ret (Some id).

(** Lines 69-81, the [else] branch of the second guard. *)
Definition process_cell (cell id : json) : M unit :=
  content_info <- py_get cell "ContentInfo" ;;
  seo_info <- py_get cell "SEOInfo" ;;
  if negb (truthy seo_info)
  then print (JStr "no seo info! skipping")
  else title <- index_str seo_info "Title" ;;
       print title ;;;
       next_id <- stream_id content_info id ;;
       match next_id with
       | None => ret tt
       | Some id' => url <- get_stream id' ;; print url
       end.

(** The body of the inner loop, lines 59-81. *)
Definition process_item (ite : json) : M unit :=
  kvs <- py_items ite ;;
  let cell := find_cell kvs in
  id <- py_get cell "GuideId" ;;
  if negb (truthy id) then ret tt
  else if negb (truthy id) then print (JStr "didnt find cell!")
  else process_cell cell id.

(** The body of the outer loop, lines 55-81, for a given inner body. *)
Definition process_fav_with (inner : json -> M unit) (item : json) : M unit :=
  l0 <- py_get item "List" ;;
  list <- (if truthy l0 then ret l0 else py_get item "Gallery") ;;
  if negb (truthy list) then ret tt
  else its <- index_str list "Items" ;;
       ys <- py_iter its ;;
       for_each inner ys.

Definition process_fav : json -> M unit := process_fav_with process_item.

(** Lines 54-81, for the decoded favourites response [fav_data]. *)
Definition main_with (inner : json -> M unit) (fav_data : json) : M unit :=
  items <- index_str fav_data "Items" ;;
  xs <- py_iter items ;;
  for_each (process_fav_with inner) xs.

Definition main : json -> M unit := main_with process_item.

(** The traversal with the two [if not id] checks collapsed to the single
    guard the spec asks for (section 9). *)
Definition process_item_collapsed (ite : json) : M unit :=
  kvs <- py_items ite ;;
  let cell := find_cell kvs in
  id <- py_get cell "GuideId" ;;
  if negb (truthy id) then ret tt
  else process_cell cell id.

Definition main_collapsed : json -> M unit := main_with process_item_collapsed.

End Script.

(** ** Reading of the selection policy from the spec (section 4.1)

    The candidates of a stream response as (media type, url) pairs: the first
    one of media type ["mp3"], else the first one, else nothing. *)
Definition select_stream_spec (cands : list (json * json)) : json :=
  match find (fun c => eq_str (fst c) "mp3") cands with
  | Some c => snd c
  | None => match cands with c :: _ => snd c | [] => JNull end
  end.

(** A stream descriptor: a dict with the given ["media_type"] and ["url"]. *)
Definition descriptor (s : json) (c : json * json) : Prop :=
  exists kvs, s = JObj kvs /\ lookup "media_type" kvs = Some (fst c)
              /\ lookup "url" kvs = Some (snd c).

(** Concrete responses used by the examples and the witnesses. *)
Definition cand (mt u : string) : json :=
  JObj [("media_type", JStr mt); ("url", JStr u)].

Definition stream_api_ex (id : json) : json :=
  match id with
  | JStr "s1" => JObj [("body", JArr [cand "aac" "A"; cand "mp3" "B"])]
  | JStr "s2" => JObj [("body", JArr [cand "aac" "A"])]
  | _ => JObj [("body", JArr [])]
  end.

Definition pod_api_ex (id : json) : json :=
  match id with
  | JStr "show" =>
      JObj [("Items", JArr [JObj [("Title", JStr "Latest")];
                            JObj [("Children",
                                   JArr [JObj [("GuideId", JStr "ep1")];
                                         JObj [("GuideId", JStr "ep0")]])]])]
  | _ => JObj [("Items", JArr [])]
  end.

(** A cell with a GuideId, a title and optionally a content type. *)
Definition cell_ex (g : string) (ty : option string) : json :=
  JObj ([("GuideId", JStr g); ("SEOInfo", JObj [("Title", JStr ("T" ++ g))])]
        ++ match ty with
           | None => []
           | Some t => [("ContentInfo", JObj [("Type", JStr t)])]
           end).

(** The value of [cell.get(k)] for a dict cell. *)
Definition get_or_none (kvs : list (string * json)) (k : string) : json :=
  match lookup k kvs with Some v => v | None => JNull end.

(** ** Reading of resolve_latest_episode from the code (lines 48-52)

    The first child of an item, when its ["Children"] is a non-empty list. *)
Definition first_child (x : json) : option json :=
  match x with
  | JObj kvs => match lookup "Children" kvs with
                | Some (JArr (y :: _)) => Some y
                | _ => None
                end
  | _ => None
  end.

Definition guide_id (y : json) : json :=
  match y with JObj ykvs => get_or_none ykvs "GuideId" | _ => JNull end.

(** The GuideId of the first child of the first item with a non-empty
    Children group, [None] when there is none. *)
Fixpoint latest_episode_spec (xs : list json) : json :=
  match xs with
  | [] => JNull
  | x :: rest => match first_child x with
                 | Some y => guide_id y
                 | None => latest_episode_spec rest
                 end
  end.

(** A well-formed item of a content listing: a dict whose ["Children"], when
    present, is null or a list whose first child is a dict with a GuideId. *)
Definition pod_item_ok (x : json) : Prop :=
  exists kvs, x = JObj kvs /\
    match lookup "Children" kvs with
    | None | Some JNull | Some (JArr []) => True
    | Some (JArr (y :: _)) =>
        exists ykvs g, y = JObj ykvs /\ lookup "GuideId" ykvs = Some g
    | Some _ => False
    end.

Example get_stream_prefers_mp3 :
  get_stream stream_api_ex (JStr "s1") = ([ReqStream (JStr "s1")], Some (JStr "B")).
Proof. reflexivity. Qed.

Example get_stream_falls_back :
  get_stream stream_api_ex (JStr "s2") = ([ReqStream (JStr "s2")], Some (JStr "A")).
Proof. reflexivity. Qed.

(** ** Counting the HTTP requests of a trace *)

Definition is_stream_request (e : event) : bool :=
  match e with ReqStream _ => true | _ => false end.

Definition is_pod_request (e : event) : bool :=
  match e with ReqPod _ => true | _ => false end.

(** The number of events of a trace that satisfy [p]. *)
Definition count_events (p : event -> bool) (t : list event) : nat :=
  List.length (filter p t).

(** A computation that produces no event. *)
Definition quiet {A} (m : M A) : Prop := fst m = [].

(** A computation whose trace has at most [n] events satisfying [p]. *)
Definition bounded {A} (p : event -> bool) (n : nat) (m : M A) : Prop :=
  count_events p (fst m) <= n.

(** ** Monad laws used below *)

Lemma bind_ret {A B} (a : A) (f : A -> M B) : bind (ret a) f = f a.
Proof. unfold bind, ret. destruct (f a); reflexivity. Qed.

Lemma bind_emit {B} (e : event) (f : unit -> M B) :
  bind (emit e) f = (e :: fst (f tt), snd (f tt)).
Proof. unfold bind, emit. destruct (f tt); reflexivity. Qed.

Lemma bind_assoc {A B C} (m : M A) (f : A -> M B) (g : B -> M C) :
  bind (bind m f) g = bind m (fun a => bind (f a) g).
Proof.
  unfold bind. destruct m as [t [a|]]; [|reflexivity].
  destruct (f a) as [t1 [b|]]; [|reflexivity].
  destruct (g b) as [t2 r]. now rewrite app_assoc.
Qed.

(** ** get_stream *)

Lemma first_mp3_descriptors streams cands :
  Forall2 descriptor streams cands ->
  first_mp3 streams =
    ret (option_map snd (find (fun c => eq_str (fst c) "mp3") cands)).
Proof.
  induction 1 as [|s c streams cands [kvs [-> [Hmt Hu]]] _ IH]; [reflexivity|].
  simpl. rewrite Hmt, bind_ret.
  destruct (eq_str (fst c) "mp3").
  - simpl. now rewrite Hu, bind_ret.
  - exact IH.
Qed.

(** C1: [get_stream] (resolve_stream) requests the identifier and returns the
    url of the first candidate of media type ["mp3"], else of the first
    candidate, else [None]: the spec's selection policy. *)
Theorem get_stream_selection_policy stream_api id kvs streams cands
  (Hresp : stream_api id = JObj kvs)
  (Hbody : lookup "body" kvs = Some (JArr streams))
  (Hcands : Forall2 descriptor streams cands) :
  get_stream stream_api id = ([ReqStream id], Some (select_stream_spec cands)).
Proof.
  unfold get_stream. rewrite bind_emit. simpl.
  rewrite Hresp. simpl. rewrite Hbody, !bind_ret.
  cbn [py_iter py_len]. rewrite !bind_ret.
  rewrite (first_mp3_descriptors _ _ Hcands), !bind_ret.
  unfold select_stream_spec.
  destruct (find _ cands) as [c|]; [reflexivity|]. simpl.
  destruct Hcands as [|s c streams' cands' [kvs' [-> [_ Hu]]] _].
  - reflexivity.
  - simpl. now rewrite Hu.
Qed.

Lemma get_stream_selection_policy_witness :
  get_stream stream_api_ex (JStr "s1") =
    ([ReqStream (JStr "s1")],
     Some (select_stream_spec [(JStr "aac", JStr "A"); (JStr "mp3", JStr "B")])).
Proof.
  apply (get_stream_selection_policy stream_api_ex (JStr "s1")
           [("body", JArr [cand "aac" "A"; cand "mp3" "B"])]
           [cand "aac" "A"; cand "mp3" "B"]); try reflexivity.
  repeat apply Forall2_cons; try apply Forall2_nil;
    unfold descriptor, cand; (eexists; split; [reflexivity | split; reflexivity]).
Defined.

Lemma bind_ext {A B} (m : M A) (f g : A -> M B) :
  (forall a, f a = g a) -> bind m f = bind m g.
Proof.
  intros H. unfold bind. destruct m as [t [a|]]; [|reflexivity].
  now rewrite H.
Qed.

Lemma lookup_some_nonempty k kvs v : lookup k kvs = Some v -> truthy (JObj kvs) = true.
Proof. destruct kvs; [discriminate|reflexivity]. Qed.

(** ** The traversal: items that reach the title line *)

Lemma process_item_title stream_api pod_api kvs ckvs g skvs title
  (Hcell : find_cell kvs = JObj ckvs)
  (Hid : lookup "GuideId" ckvs = Some g) (Hg : truthy g = true)
  (Hseo : lookup "SEOInfo" ckvs = Some (JObj skvs))
  (Htitle : lookup "Title" skvs = Some title) :
  process_item stream_api pod_api (JObj kvs) =
    (print title ;;;
     next_id <- stream_id pod_api (get_or_none ckvs "ContentInfo") g ;;
     match next_id with
     | None => ret tt
     | Some id' => url <- get_stream stream_api id' ;; print url
     end).
Proof.
  unfold process_item. cbn [py_items]. rewrite bind_ret. rewrite Hcell.
  cbn [py_get]. rewrite Hid, bind_ret, Hg. cbn [negb].
  unfold process_cell, get_or_none. cbn [py_get].
  destruct (lookup "ContentInfo" ckvs) as [ci|]; rewrite bind_ret;
    rewrite Hseo, bind_ret, (lookup_some_nonempty _ _ _ Htitle); cbn [negb index_str];
    rewrite Htitle, bind_ret; reflexivity.
Qed.

Lemma stream_id_show pod_api cikvs ty g
  (Hty : lookup "Type" cikvs = Some ty)
  (Haudio : eq_str ty "Audiobook" = false)
  (Hstation : eq_str ty "Station" = false) :
  stream_id pod_api (JObj cikvs) g =
    (print ty ;;; id' <- get_pod_info pod_api g ;; ret (Some id')).
Proof.
  unfold stream_id. rewrite (lookup_some_nonempty _ _ _ Hty).
  cbn [index_str]. rewrite Hty, !bind_ret, Haudio.
  apply bind_ext. intros []. rewrite Hstation. reflexivity.
Qed.

(** The traversal visits one item and then goes on with the rest. *)
Lemma for_each_cons {A} (body : A -> M unit) x rest :
  for_each body (x :: rest) = body x ;;; for_each body rest.
Proof. reflexivity. Qed.

Lemma fst_bind {A B} (m : M A) (f : A -> M B) :
  fst (bind m f) = fst m ++ match snd m with Some a => fst (f a) | None => [] end.
Proof.
  destruct m as [t [a|]]; unfold bind; simpl; [destruct (f a)|];
    [reflexivity | now rewrite app_nil_r].
Qed.

(** A cell of a non-station, non-audiobook item, with a GuideId and a title. *)
Lemma process_item_show stream_api pod_api kvs ckvs g skvs title cikvs ty
  (Hcell : find_cell kvs = JObj ckvs)
  (Hid : lookup "GuideId" ckvs = Some g) (Hg : truthy g = true)
  (Hseo : lookup "SEOInfo" ckvs = Some (JObj skvs))
  (Htitle : lookup "Title" skvs = Some title)
  (Hci : lookup "ContentInfo" ckvs = Some (JObj cikvs))
  (Hty : lookup "Type" cikvs = Some ty)
  (Haudio : eq_str ty "Audiobook" = false)
  (Hstation : eq_str ty "Station" = false) :
  process_item stream_api pod_api (JObj kvs) =
    (print title ;;;
     print ty ;;;
     id' <- get_pod_info pod_api g ;;
     url <- get_stream stream_api id' ;;
     print url).
Proof.
  rewrite (process_item_title _ _ _ _ _ _ _ Hcell Hid Hg Hseo Htitle).
  unfold get_or_none. rewrite Hci.
  rewrite (stream_id_show _ _ _ _ Hty Haudio Hstation).
  apply bind_ext. intros [].
  rewrite bind_assoc. apply bind_ext. intros [].
  rewrite bind_assoc. apply bind_ext. intros id'.
  now rewrite bind_ret.
Qed.

(** C5: for a cell whose ContentInfo type is neither ["Station"] nor
    ["Audiobook"], the traversal prints the title and the type, looks up the
    latest episode of the GuideId with [get_pod_info] (resolve_latest_episode)
    and passes its result, not the GuideId, to [get_stream]. *)
Theorem show_resolves_latest_episode stream_api pod_api kvs ckvs g skvs title
  cikvs ty
  (Hcell : find_cell kvs = JObj ckvs)
  (Hid : lookup "GuideId" ckvs = Some g) (Hg : truthy g = true)
  (Hseo : lookup "SEOInfo" ckvs = Some (JObj skvs))
  (Htitle : lookup "Title" skvs = Some title)
  (Hci : lookup "ContentInfo" ckvs = Some (JObj cikvs))
  (Hty : lookup "Type" cikvs = Some ty)
  (Haudio : eq_str ty "Audiobook" = false)
  (Hstation : eq_str ty "Station" = false) :
  process_item stream_api pod_api (JObj kvs) =
    (print title ;;;
     print ty ;;;
     id' <- get_pod_info pod_api g ;;
     url <- get_stream stream_api id' ;;
     print url).
Proof.
  exact (process_item_show _ _ _ _ _ _ _ _ _ Hcell Hid Hg Hseo Htitle Hci Hty
           Haudio Hstation).
Qed.

Lemma show_resolves_latest_episode_witness :
  process_item stream_api_ex pod_api_ex
    (JObj [("ShowCell", cell_ex "show" (Some "Podcast"))]) =
    (print (JStr "Tshow") ;;;
     print (JStr "Podcast") ;;;
     id' <- get_pod_info pod_api_ex (JStr "show") ;;
     url <- get_stream stream_api_ex id' ;;
     print url).
Proof.
  apply (show_resolves_latest_episode stream_api_ex pod_api_ex
           [("ShowCell", cell_ex "show" (Some "Podcast"))]
           [("GuideId", JStr "show"); ("SEOInfo", JObj [("Title", JStr "Tshow")]);
            ("ContentInfo", JObj [("Type", JStr "Podcast")])]
           (JStr "show") [("Title", JStr "Tshow")] (JStr "Tshow")
           [("Type", JStr "Podcast")] (JStr "Podcast"));
    reflexivity.
Defined.

(** C10: when [get_pod_info] finds no episode and returns [None], the
    traversal still calls [get_stream] on [None]: a stream request for the
    null identifier follows the episode lookup, with no guard in between. *)
Theorem missing_episode_still_requested stream_api pod_api kvs ckvs g skvs
  title cikvs ty pod_trace
  (Hcell : find_cell kvs = JObj ckvs)
  (Hid : lookup "GuideId" ckvs = Some g) (Hg : truthy g = true)
  (Hseo : lookup "SEOInfo" ckvs = Some (JObj skvs))
  (Htitle : lookup "Title" skvs = Some title)
  (Hci : lookup "ContentInfo" ckvs = Some (JObj cikvs))
  (Hty : lookup "Type" cikvs = Some ty)
  (Haudio : eq_str ty "Audiobook" = false)
  (Hstation : eq_str ty "Station" = false)
  (Hpod : get_pod_info pod_api g = (pod_trace, Some JNull)) :
  exists rest,
    fst (process_item stream_api pod_api (JObj kvs)) =
      [Print title; Print ty] ++ pod_trace ++ ReqStream JNull :: rest.
Proof.
  rewrite (process_item_show _ _ _ _ _ _ _ _ _ Hcell Hid Hg Hseo Htitle Hci Hty
             Haudio Hstation).
  unfold get_stream. rewrite !fst_bind. rewrite Hpod.
  cbn [print emit fst snd app]. rewrite !fst_bind.
  cbn [print emit fst snd app].
  eexists. reflexivity.
Qed.

Lemma missing_episode_still_requested_witness :
  get_pod_info pod_api_ex (JStr "gone") = ([ReqPod (JStr "gone")], Some JNull) /\
  exists rest,
    fst (process_item stream_api_ex pod_api_ex
           (JObj [("ShowCell", cell_ex "gone" (Some "Podcast"))])) =
      [Print (JStr "Tgone"); Print (JStr "Podcast")] ++ [ReqPod (JStr "gone")]
        ++ ReqStream JNull :: rest.
Proof.
  split; [reflexivity|].
  apply (missing_episode_still_requested stream_api_ex pod_api_ex
           [("ShowCell", cell_ex "gone" (Some "Podcast"))]
           [("GuideId", JStr "gone"); ("SEOInfo", JObj [("Title", JStr "Tgone")]);
            ("ContentInfo", JObj [("Type", JStr "Podcast")])]
           (JStr "gone") [("Title", JStr "Tgone")] (JStr "Tgone")
           [("Type", JStr "Podcast")] (JStr "Podcast"));
    reflexivity.
Defined.

(** ** Audiobooks *)

(** C3, as stated, fails: an audiobook cell that reaches line 74 has its
    title printed before the audiobook test of line 76. *)
Lemma audiobook_title_printed :
  fst (process_item stream_api_ex pod_api_ex
         (JObj [("BookCell", cell_ex "book" (Some "Audiobook"))]))
    = [Print (JStr "Tbook")] /\
  fst (process_item stream_api_ex pod_api_ex
         (JObj [("BookCell", cell_ex "book" (Some "Audiobook"))])) <> [].
Proof. split; [reflexivity | discriminate]. Qed.

(** C3 (amended): a cell with a GuideId, a title and ContentInfo.Type
    ["Audiobook"] prints its title line and nothing else: no type line, no
    request and no stream line; the loop goes on with the next item. *)
Theorem audiobook_prints_only_title stream_api pod_api kvs ckvs g skvs title
  cikvs rest
  (Hcell : find_cell kvs = JObj ckvs)
  (Hid : lookup "GuideId" ckvs = Some g) (Hg : truthy g = true)
  (Hseo : lookup "SEOInfo" ckvs = Some (JObj skvs))
  (Htitle : lookup "Title" skvs = Some title)
  (Hci : lookup "ContentInfo" ckvs = Some (JObj cikvs))
  (Hty : lookup "Type" cikvs = Some (JStr "Audiobook")) :
  for_each (process_item stream_api pod_api) (JObj kvs :: rest) =
    (Print title :: fst (for_each (process_item stream_api pod_api) rest),
     snd (for_each (process_item stream_api pod_api) rest)).
Proof.
  rewrite for_each_cons.
  rewrite (process_item_title _ _ _ _ _ _ _ Hcell Hid Hg Hseo Htitle).
  unfold get_or_none. rewrite Hci. unfold stream_id.
  rewrite (lookup_some_nonempty _ _ _ Hty). cbn [index_str]. rewrite Hty.
  rewrite !bind_ret. cbn [eq_str String.eqb Ascii.eqb Bool.eqb].
  unfold print. rewrite bind_assoc, bind_emit. cbv beta.
  rewrite !bind_ret. reflexivity.
Qed.

Lemma audiobook_prints_only_title_witness :
  for_each (process_item stream_api_ex pod_api_ex)
    [JObj [("BookCell", cell_ex "book" (Some "Audiobook"))];
     JObj [("StationCell", cell_ex "s2" (Some "Station"))]] =
    (Print (JStr "Tbook")
       :: fst (for_each (process_item stream_api_ex pod_api_ex)
                 [JObj [("StationCell", cell_ex "s2" (Some "Station"))]]),
     snd (for_each (process_item stream_api_ex pod_api_ex)
            [JObj [("StationCell", cell_ex "s2" (Some "Station"))]])).
Proof.
  apply (audiobook_prints_only_title stream_api_ex pod_api_ex
           [("BookCell", cell_ex "book" (Some "Audiobook"))]
           [("GuideId", JStr "book"); ("SEOInfo", JObj [("Title", JStr "Tbook")]);
            ("ContentInfo", JObj [("Type", JStr "Audiobook")])]
           (JStr "book") [("Title", JStr "Tbook")] (JStr "Tbook")
           [("Type", JStr "Audiobook")]);
    reflexivity.
Defined.

(** ** Cells without SEOInfo *)

(** C8: a cell with a GuideId and no SEOInfo (absent, or empty) prints the
    ["no seo info! skipping"] diagnostic and nothing else, and the loop goes
    on with the next item. *)
Theorem no_seo_info_skips stream_api pod_api kvs ckvs g rest
  (Hcell : find_cell kvs = JObj ckvs)
  (Hid : lookup "GuideId" ckvs = Some g) (Hg : truthy g = true)
  (Hseo : truthy (get_or_none ckvs "SEOInfo") = false) :
  for_each (process_item stream_api pod_api) (JObj kvs :: rest) =
    (Print (JStr "no seo info! skipping")
       :: fst (for_each (process_item stream_api pod_api) rest),
     snd (for_each (process_item stream_api pod_api) rest)).
Proof.
  rewrite for_each_cons. unfold process_item. cbn [py_items].
  rewrite bind_ret, Hcell. cbn [py_get]. rewrite Hid, bind_ret, Hg.
  cbn [negb]. unfold process_cell. cbn [py_get].
  unfold get_or_none in Hseo.
  destruct (lookup "ContentInfo" ckvs); rewrite bind_ret;
    destruct (lookup "SEOInfo" ckvs); rewrite bind_ret, Hseo; cbn [negb];
    unfold print; rewrite bind_emit; reflexivity.
Qed.

Lemma no_seo_info_skips_witness :
  for_each (process_item stream_api_ex pod_api_ex)
    [JObj [("StationCell", JObj [("GuideId", JStr "s1")])]] =
    (Print (JStr "no seo info! skipping")
       :: fst (for_each (process_item stream_api_ex pod_api_ex) []),
     snd (for_each (process_item stream_api_ex pod_api_ex) [])).
Proof.
  apply (no_seo_info_skips stream_api_ex pod_api_ex
           [("StationCell", JObj [("GuideId", JStr "s1")])]
           [("GuideId", JStr "s1")] (JStr "s1") []);
    reflexivity.
Defined.

(** ** Favourites without a List or a Gallery *)

(** C9: a favourite entry whose ["List"] and ["Gallery"] are both absent or
    falsy prints nothing and the loop goes on with the next entry. *)
Theorem no_list_no_gallery_skipped stream_api pod_api kvs rest
  (Hlist : truthy (get_or_none kvs "List") = false)
  (Hgallery : truthy (get_or_none kvs "Gallery") = false) :
  for_each (process_fav stream_api pod_api) (JObj kvs :: rest) =
    for_each (process_fav stream_api pod_api) rest.
Proof.
  rewrite for_each_cons. unfold process_fav, process_fav_with. cbn [py_get].
  unfold get_or_none in Hlist, Hgallery.
  destruct (lookup "List" kvs); rewrite bind_ret; rewrite ?Hlist;
    cbn [truthy] in Hlist |- *; rewrite ?Hlist;
    destruct (lookup "Gallery" kvs); rewrite bind_ret, ?Hgallery;
    cbn [truthy] in Hgallery |- *; rewrite ?Hgallery; cbn [negb];
    rewrite bind_ret; reflexivity.
Qed.

Lemma no_list_no_gallery_skipped_witness :
  for_each (process_fav stream_api_ex pod_api_ex)
    [JObj [("Title", JStr "Recents"); ("List", JNull)]] =
    for_each (process_fav stream_api_ex pod_api_ex) [].
Proof.
  apply (no_list_no_gallery_skipped stream_api_ex pod_api_ex
           [("Title", JStr "Recents"); ("List", JNull)] []);
    reflexivity.
Defined.

(** ** The duplicated [if not id] guard *)

Lemma for_each_ext {A} (f g : A -> M unit) l :
  (forall x, f x = g x) -> for_each f l = for_each g l.
Proof.
  intros H. induction l as [|x l IH]; [reflexivity|].
  simpl. rewrite H. apply bind_ext. intros _. exact IH.
Qed.

Lemma process_item_collapse stream_api pod_api ite :
  process_item stream_api pod_api ite =
    process_item_collapsed stream_api pod_api ite.
Proof.
  unfold process_item, process_item_collapsed.
  apply bind_ext. intros kvs. apply bind_ext. intros id.
  destruct (truthy id); reflexivity.
Qed.

(** C7: the second [if not id] of line 66 is dead code: the whole traversal
    gives the same trace and outcome as the one with a single guard, for every
    favourites response and every response of the two endpoints. *)
Theorem single_guard_equivalent stream_api pod_api fav_data :
  main stream_api pod_api fav_data = main_collapsed stream_api pod_api fav_data.
Proof.
  unfold main, main_collapsed, main_with.
  apply bind_ext. intros items. apply bind_ext. intros xs.
  apply for_each_ext. intros item. unfold process_fav_with.
  apply bind_ext. intros l0. apply bind_ext. intros l.
  destruct (negb (truthy l)); [reflexivity|].
  apply bind_ext. intros its. apply bind_ext. intros ys.
  apply for_each_ext. apply process_item_collapse.
Qed.

(** ** get_pod_info *)

(** C6, as stated, fails: the first item of the listing has no Children, the
    second has, and [get_pod_info] returns the first child of the second. *)
Lemma pod_info_looks_past_first_item :
  first_child (JObj [("Title", JStr "Latest")]) = None /\
  get_pod_info pod_api_ex (JStr "show") =
    ([ReqPod (JStr "show")], Some (JStr "ep1")) /\
  snd (get_pod_info pod_api_ex (JStr "show")) <> Some JNull.
Proof. split; [reflexivity | split; [reflexivity | discriminate]]. Qed.

Lemma pod_loop_items xs :
  Forall pod_item_ok xs -> pod_loop xs = ret (latest_episode_spec xs).
Proof.
  induction 1 as [|x xs [kvs [-> Hx]] _ IH]; [reflexivity|].
  simpl. unfold first_child.
  destruct (lookup "Children" kvs) as [c|]; rewrite bind_ret; [|exact IH].
  destruct c as [| | | |ys|]; try contradiction; cbn [truthy]; try exact IH.
  destruct ys as [|y ys]; [exact IH|].
  destruct Hx as [ykvs [g [-> Hg]]].
  cbn [py_iter]. rewrite bind_ret. cbn [index_str guide_id].
  unfold get_or_none. now rewrite Hg.
Qed.

(** C6 (amended): [get_pod_info] (resolve_latest_episode) requests the
    listing of the identifier and returns the GuideId of the first child of
    the first item whose Children group is non-empty, looking past items
    without one; [None] when no item has one. *)
Theorem get_pod_info_first_nonempty_children pod_api id pkvs xs
  (Hresp : pod_api id = JObj pkvs)
  (Hitems : lookup "Items" pkvs = Some (JArr xs))
  (Hok : Forall pod_item_ok xs) :
  get_pod_info pod_api id = ([ReqPod id], Some (latest_episode_spec xs)).
Proof.
  unfold get_pod_info. rewrite bind_emit. rewrite Hresp. cbn [index_str].
  rewrite Hitems, bind_ret. cbn [py_iter]. rewrite bind_ret.
  rewrite (pod_loop_items _ Hok). reflexivity.
Qed.

Lemma get_pod_info_first_nonempty_children_witness :
  get_pod_info pod_api_ex (JStr "show") =
    ([ReqPod (JStr "show")],
     Some (latest_episode_spec
             [JObj [("Title", JStr "Latest")];
              JObj [("Children", JArr [JObj [("GuideId", JStr "ep1")];
                                       JObj [("GuideId", JStr "ep0")]])]])).
Proof.
  apply (get_pod_info_first_nonempty_children pod_api_ex (JStr "show")
           [("Items", JArr [JObj [("Title", JStr "Latest")];
                            JObj [("Children",
                                   JArr [JObj [("GuideId", JStr "ep1")];
                                         JObj [("GuideId", JStr "ep0")]])]])]);
    [reflexivity | reflexivity |].
  repeat constructor; unfold pod_item_ok; eexists; (split; [reflexivity|]);
    cbn; [exact I | eexists; eexists; split; reflexivity].
Defined.

(** ** Empty candidate lists *)

(** C4, as stated, fails: for a station whose stream response has no
    candidate, line 81 still prints the [None] that [get_stream] returns. *)
Lemma empty_candidates_print_none :
  process_item stream_api_ex pod_api_ex
    (JObj [("StationCell", cell_ex "z" (Some "Station"))]) =
    ([Print (JStr "Tz"); Print (JStr "Station"); ReqStream (JStr "z");
      Print JNull], Some tt) /\
  In (Print JNull)
    (fst (process_item stream_api_ex pod_api_ex
            (JObj [("StationCell", cell_ex "z" (Some "Station"))]))).
Proof. split; [reflexivity | simpl; tauto]. Qed.

(** C4 (amended): for an empty candidate list [get_stream] returns [None],
    and the caller's [print(get_stream(id))] prints that [None] (the line
    ["None"]) as the item's URL line. *)
Theorem empty_candidates_url_line_is_none stream_api id kvs
  (Hresp : stream_api id = JObj kvs)
  (Hbody : lookup "body" kvs = Some (JArr [])) :
  get_stream stream_api id = ([ReqStream id], Some JNull) /\
  (url <- get_stream stream_api id ;; print url) =
    ([ReqStream id; Print JNull], Some tt).
Proof.
  assert (H : get_stream stream_api id = ([ReqStream id], Some JNull)).
  { unfold get_stream. rewrite bind_emit, Hresp. cbn [index_str].
    rewrite Hbody. reflexivity. }
  split; [exact H|]. rewrite H. reflexivity.
Qed.

Lemma empty_candidates_url_line_is_none_witness :
  get_stream stream_api_ex (JStr "z") = ([ReqStream (JStr "z")], Some JNull) /\
  (url <- get_stream stream_api_ex (JStr "z") ;; print url) =
    ([ReqStream (JStr "z"); Print JNull], Some tt).
Proof.
  apply (empty_candidates_url_line_is_none stream_api_ex (JStr "z")
           [("body", JArr [])]); reflexivity.
Defined.

(** ** Items without a Cell *)

Lemma find_cell_none kvs :
  forallb (fun kv => negb (endswith (fst kv) "Cell")) kvs = true ->
  find_cell kvs = JNull.
Proof.
  induction kvs as [|[k v] kvs IH]; [reflexivity|].
  simpl. intros H. apply andb_prop in H as [Hk Hrest].
  destruct (endswith k "Cell"); [discriminate|]. exact (IH Hrest).
Qed.

(** C2: an item with no key ending in ["Cell"] is not skipped: [next] yields
    [None], [cell.get('GuideId')] of line 63 raises, and the run stops there
    without printing anything for the item or visiting the next one. *)
Theorem no_cell_aborts_run stream_api pod_api kvs rest
  (Hnocell : forallb (fun kv => negb (endswith (fst kv) "Cell")) kvs = true) :
  for_each (process_item stream_api pod_api) (JObj kvs :: rest) = ([], None).
Proof.
  rewrite for_each_cons. unfold process_item. cbn [py_items].
  rewrite bind_ret, (find_cell_none _ Hnocell). reflexivity.
Qed.

Lemma no_cell_aborts_run_witness :
  for_each (process_item stream_api_ex pod_api_ex)
    [JObj [("ContainerNavigation", JObj [("Title", JStr "More")])];
     JObj [("StationCell", cell_ex "s1" (Some "Station"))]] = ([], None).
Proof.
  apply (no_cell_aborts_run stream_api_ex pod_api_ex
           [("ContainerNavigation", JObj [("Title", JStr "More")])]
           [JObj [("StationCell", cell_ex "s1" (Some "Station"))]]).
  reflexivity.
Defined.

(** * Further properties of the script *)

(** ** Computations that produce no events *)

Lemma quiet_bind {A B} (m : M A) (f : A -> M B) :
  quiet m -> (forall a, quiet (f a)) -> quiet (bind m f).
Proof.
  unfold quiet. intros Hm Hf. rewrite fst_bind, Hm.
  destruct (snd m); [apply Hf | reflexivity].
Qed.

Lemma quiet_ret {A} (a : A) : quiet (ret a).
Proof. reflexivity. Qed.

Lemma quiet_index_str d k : quiet (index_str d k).
Proof. destruct d; try reflexivity. simpl. destruct (lookup k l); reflexivity. Qed.

Lemma quiet_index_int d i : quiet (index_int d i).
Proof.
  destruct d; try reflexivity; simpl.
  - destruct (String.get i s); reflexivity.
  - destruct (nth_error l i); reflexivity.
Qed.

Lemma quiet_py_get d k : quiet (py_get d k).
Proof. destruct d; try reflexivity. simpl. destruct (lookup k l); reflexivity. Qed.

Lemma quiet_py_iter v : quiet (py_iter v).
Proof. destruct v; reflexivity. Qed.

Lemma quiet_py_len v : quiet (py_len v).
Proof. destruct v; reflexivity. Qed.

Lemma quiet_first_mp3 streams : quiet (first_mp3 streams).
Proof.
  induction streams as [|s rest IH]; [reflexivity|]. simpl.
  apply quiet_bind; [apply quiet_index_str|]. intros mt.
  destruct (eq_str mt "mp3"); [|exact IH].
  apply quiet_bind; [apply quiet_index_str | intros; apply quiet_ret].
Qed.

Lemma quiet_pod_loop xs : quiet (pod_loop xs).
Proof.
  induction xs as [|x rest IH]; [reflexivity|]. simpl.
  apply quiet_bind; [apply quiet_py_get|]. intros c.
  destruct (truthy c); [|exact IH].
  apply quiet_bind; [apply quiet_py_iter|]. intros [|y ys]; [exact IH|].
  apply quiet_index_str.
Qed.

Create HintDb quiet.
#[local] Hint Resolve quiet_ret quiet_index_str quiet_index_int quiet_py_get
  quiet_py_iter quiet_py_len quiet_first_mp3 quiet_pod_loop : quiet.

Lemma get_stream_trace stream_api id :
  fst (get_stream stream_api id) = [ReqStream id].
Proof.
  unfold get_stream. rewrite fst_bind. cbn [emit fst snd app].
  f_equal. fold (quiet (body <- index_str (stream_api id) "body" ;;
    streams <- py_iter body ;; found <- first_mp3 streams ;;
    match found with
    | Some u => ret u
    | None => n <- py_len body ;;
              if (0 <? n)%nat then s0 <- index_int body 0 ;; index_str s0 "url"
              else ret JNull
    end)).
  apply quiet_bind; auto with quiet. intros body.
  apply quiet_bind; auto with quiet. intros streams.
  apply quiet_bind; auto with quiet. intros [u|]; auto with quiet.
  apply quiet_bind; auto with quiet. intros n.
  destruct (0 <? n)%nat; auto with quiet.
  apply quiet_bind; auto with quiet.
Qed.

Lemma get_pod_info_trace pod_api id :
  fst (get_pod_info pod_api id) = [ReqPod id].
Proof.
  unfold get_pod_info. rewrite fst_bind. cbn [emit fst snd app].
  f_equal. fold (quiet (items <- index_str (pod_api id) "Items" ;;
                        xs <- py_iter items ;; pod_loop xs)).
  apply quiet_bind; auto with quiet. intros items.
  apply quiet_bind; auto with quiet.
Qed.

(** X1: whatever the response, [get_stream] prints nothing and makes exactly
    one request, to the stream endpoint for its identifier, whether it
    returns or raises. *)
Theorem get_stream_single_request stream_api id :
  fst (get_stream stream_api id) = [ReqStream id].
Proof. exact (get_stream_trace stream_api id). Qed.

(** X2: whatever the response, [get_pod_info] prints nothing and makes
    exactly one request, to the contents endpoint for its identifier. *)
Theorem get_pod_info_single_request pod_api id :
  fst (get_pod_info pod_api id) = [ReqPod id].
Proof. exact (get_pod_info_trace pod_api id). Qed.

(** ** Error behaviour of the two lookups *)

(** X3: a stream response without a ["body"] key (an error document, say)
    makes [get_stream] raise (KeyError on line 39) after its request. *)
Theorem get_stream_missing_body_raises stream_api id kvs
  (Hresp : stream_api id = JObj kvs)
  (Hbody : lookup "body" kvs = None) :
  get_stream stream_api id = ([ReqStream id], None).
Proof.
  unfold get_stream. rewrite bind_emit, Hresp. cbn [index_str].
  rewrite Hbody. reflexivity.
Qed.

Lemma get_stream_missing_body_raises_witness :
  get_stream (fun _ => JObj [("head", JObj [("status", JStr "400")])]) (JStr "x")
    = ([ReqStream (JStr "x")], None).
Proof.
  apply (get_stream_missing_body_raises _ (JStr "x")
           [("head", JObj [("status", JStr "400")])]); reflexivity.
Defined.

(** X4: the scan for an mp3 stream stops at the first one: candidates after
    it are never inspected, so they may be malformed without effect. Before
    it, every candidate must carry a ["media_type"] and a ["url"]. *)
Theorem get_stream_ignores_after_first_mp3 stream_api id kvs pre cands s u post
  (Hresp : stream_api id = JObj kvs)
  (Hbody : lookup "body" kvs = Some (JArr (pre ++ s :: post)))
  (Hpre : Forall2 descriptor pre cands)
  (Hnomp3 : forallb (fun c => negb (eq_str (fst c) "mp3")) cands = true)
  (Hs : descriptor s (JStr "mp3", u)) :
  get_stream stream_api id = ([ReqStream id], Some u).
Proof.
  unfold get_stream. rewrite bind_emit, Hresp. cbn [index_str].
  rewrite Hbody, bind_ret. cbn [py_iter]. rewrite bind_ret.
  assert (Hloop : first_mp3 (pre ++ s :: post) = ret (Some u)).
  { clear Hbody. induction Hpre as [|p c pre' cands' [pkvs [-> [Hmt _]]] _ IH].
    - destruct Hs as [skvs [-> [Hmt Hu]]]. simpl. rewrite Hmt, bind_ret.
      simpl. now rewrite Hu, bind_ret.
    - simpl in Hnomp3 |- *. apply andb_prop in Hnomp3 as [Hc Hrest].
      rewrite Hmt, bind_ret. destruct (eq_str (fst c) "mp3"); [discriminate|].
      exact (IH Hrest). }
  rewrite Hloop, bind_ret. reflexivity.
Qed.

Lemma get_stream_ignores_after_first_mp3_witness :
  get_stream (fun _ => JObj [("body", JArr [cand "aac" "A"; cand "mp3" "B"; JNull])])
    (JStr "x") = ([ReqStream (JStr "x")], Some (JStr "B")).
Proof.
  apply (get_stream_ignores_after_first_mp3 _ (JStr "x")
           [("body", JArr [cand "aac" "A"; cand "mp3" "B"; JNull])]
           [cand "aac" "A"] [(JStr "aac", JStr "A")] (cand "mp3" "B") (JStr "B")
           [JNull]); try reflexivity.
  - repeat constructor. unfold descriptor, cand.
    eexists; split; [reflexivity | split; reflexivity].
  - unfold descriptor, cand. eexists; split; [reflexivity | split; reflexivity].
Defined.

(** X5: a candidate without ["media_type"] met before any mp3 candidate makes
    [get_stream] raise (KeyError on line 40); there is no fallback to the
    first candidate then. *)
Theorem get_stream_candidate_without_media_type_raises stream_api id kvs skvs
  rest
  (Hresp : stream_api id = JObj kvs)
  (Hbody : lookup "body" kvs = Some (JArr (JObj skvs :: rest)))
  (Hmt : lookup "media_type" skvs = None) :
  get_stream stream_api id = ([ReqStream id], None).
Proof.
  unfold get_stream. rewrite bind_emit, Hresp. cbn [index_str].
  rewrite Hbody, bind_ret. cbn [py_iter]. rewrite !bind_ret.
  cbn [first_mp3 index_str]. rewrite Hmt. reflexivity.
Qed.

Lemma get_stream_candidate_without_media_type_raises_witness :
  get_stream (fun _ => JObj [("body", JArr [JObj [("url", JStr "A")]])])
    (JStr "x") = ([ReqStream (JStr "x")], None).
Proof.
  apply (get_stream_candidate_without_media_type_raises _ (JStr "x")
           [("body", JArr [JObj [("url", JStr "A")]])] [("url", JStr "A")] []);
    reflexivity.
Defined.

(** X6: a contents response without an ["Items"] key makes [get_pod_info]
    raise (KeyError on line 48) after its request. *)
Theorem get_pod_info_missing_items_raises pod_api id kvs
  (Hresp : pod_api id = JObj kvs)
  (Hitems : lookup "Items" kvs = None) :
  get_pod_info pod_api id = ([ReqPod id], None).
Proof.
  unfold get_pod_info. rewrite bind_emit, Hresp. cbn [index_str].
  rewrite Hitems. reflexivity.
Qed.

Lemma get_pod_info_missing_items_raises_witness :
  get_pod_info (fun _ => JObj [("Header", JObj [])]) (JStr "p")
    = ([ReqPod (JStr "p")], None).
Proof.
  apply (get_pod_info_missing_items_raises _ (JStr "p") [("Header", JObj [])]);
    reflexivity.
Defined.

(** X7: a favourites response without ["Items"] ends the run at line 54 with
    nothing printed and no request made. *)
Theorem main_missing_items_raises stream_api pod_api kvs
  (Hitems : lookup "Items" kvs = None) :
  main stream_api pod_api (JObj kvs) = ([], None).
Proof. unfold main, main_with. cbn [index_str]. now rewrite Hitems. Qed.

Lemma main_missing_items_raises_witness :
  main stream_api_ex pod_api_ex (JObj [("fault", JStr "unauthorized")]) = ([], None).
Proof.
  apply (main_missing_items_raises stream_api_ex pod_api_ex
           [("fault", JStr "unauthorized")]); reflexivity.
Defined.

(** ** Which identifier an item resolves *)

(** X8: a station (ContentInfo.Type ["Station"]) prints its title and type and
    resolves its own GuideId; no episode lookup is made. *)
Theorem station_resolves_own_id stream_api pod_api kvs ckvs g skvs title cikvs
  (Hcell : find_cell kvs = JObj ckvs)
  (Hid : lookup "GuideId" ckvs = Some g) (Hg : truthy g = true)
  (Hseo : lookup "SEOInfo" ckvs = Some (JObj skvs))
  (Htitle : lookup "Title" skvs = Some title)
  (Hci : lookup "ContentInfo" ckvs = Some (JObj cikvs))
  (Hty : lookup "Type" cikvs = Some (JStr "Station")) :
  process_item stream_api pod_api (JObj kvs) =
    (print title ;;;
     print (JStr "Station") ;;;
     url <- get_stream stream_api g ;;
     print url).
Proof.
  rewrite (process_item_title _ _ _ _ _ _ _ Hcell Hid Hg Hseo Htitle).
  unfold get_or_none. rewrite Hci. unfold stream_id.
  rewrite (lookup_some_nonempty _ _ _ Hty). cbn [index_str]. rewrite Hty.
  rewrite !bind_ret. cbn [eq_str String.eqb Ascii.eqb Bool.eqb negb].
  apply bind_ext. intros []. rewrite bind_assoc. apply bind_ext. intros [].
  now rewrite bind_ret.
Qed.

Lemma station_resolves_own_id_witness :
  process_item stream_api_ex pod_api_ex
    (JObj [("StationCell", cell_ex "s1" (Some "Station"))]) =
    (print (JStr "Ts1") ;;;
     print (JStr "Station") ;;;
     url <- get_stream stream_api_ex (JStr "s1") ;;
     print url).
Proof.
  apply (station_resolves_own_id stream_api_ex pod_api_ex
           [("StationCell", cell_ex "s1" (Some "Station"))]
           [("GuideId", JStr "s1"); ("SEOInfo", JObj [("Title", JStr "Ts1")]);
            ("ContentInfo", JObj [("Type", JStr "Station")])]
           (JStr "s1") [("Title", JStr "Ts1")] (JStr "Ts1")
           [("Type", JStr "Station")]); reflexivity.
Defined.

(** X9: an item without ContentInfo (absent or empty) prints its title and
    resolves its own GuideId: no type line and no episode lookup. *)
Theorem no_content_info_resolves_own_id stream_api pod_api kvs ckvs g skvs title
  (Hcell : find_cell kvs = JObj ckvs)
  (Hid : lookup "GuideId" ckvs = Some g) (Hg : truthy g = true)
  (Hseo : lookup "SEOInfo" ckvs = Some (JObj skvs))
  (Htitle : lookup "Title" skvs = Some title)
  (Hci : truthy (get_or_none ckvs "ContentInfo") = false) :
  process_item stream_api pod_api (JObj kvs) =
    (print title ;;;
     url <- get_stream stream_api g ;;
     print url).
Proof.
  rewrite (process_item_title _ _ _ _ _ _ _ Hcell Hid Hg Hseo Htitle).
  unfold stream_id. rewrite Hci. apply bind_ext. intros [].
  now rewrite bind_ret.
Qed.

Lemma no_content_info_resolves_own_id_witness :
  process_item stream_api_ex pod_api_ex
    (JObj [("StationCell", cell_ex "s2" None)]) =
    (print (JStr "Ts2") ;;;
     url <- get_stream stream_api_ex (JStr "s2") ;;
     print url).
Proof.
  apply (no_content_info_resolves_own_id stream_api_ex pod_api_ex
           [("StationCell", cell_ex "s2" None)]
           [("GuideId", JStr "s2"); ("SEOInfo", JObj [("Title", JStr "Ts2")])]
           (JStr "s2") [("Title", JStr "Ts2")] (JStr "Ts2")); reflexivity.
Defined.

(** X10: a cell whose GuideId is absent or falsy (null, empty string) is
    skipped silently: nothing printed, no request, the item completes. *)
Theorem falsy_guide_id_silent_skip stream_api pod_api kvs ckvs
  (Hcell : find_cell kvs = JObj ckvs)
  (Hid : truthy (get_or_none ckvs "GuideId") = false) :
  process_item stream_api pod_api (JObj kvs) = ([], Some tt).
Proof.
  unfold process_item. cbn [py_items]. rewrite bind_ret, Hcell. cbn [py_get].
  unfold get_or_none in Hid.
  destruct (lookup "GuideId" ckvs); rewrite bind_ret; cbn [truthy] in *;
    rewrite ?Hid; reflexivity.
Qed.

Lemma falsy_guide_id_silent_skip_witness :
  process_item stream_api_ex pod_api_ex
    (JObj [("StationCell", JObj [("GuideId", JStr "");
                                 ("SEOInfo", JObj [("Title", JStr "T")])])])
    = ([], Some tt).
Proof.
  apply (falsy_guide_id_silent_skip stream_api_ex pod_api_ex
           [("StationCell", JObj [("GuideId", JStr "");
                                  ("SEOInfo", JObj [("Title", JStr "T")])])]
           [("GuideId", JStr ""); ("SEOInfo", JObj [("Title", JStr "T")])]);
    reflexivity.
Defined.

(** ** An exception ends the run *)

Lemma for_each_app {A} (body : A -> M unit) l1 l2 :
  for_each body (l1 ++ l2) = (for_each body l1 ;;; for_each body l2).
Proof.
  induction l1 as [|x l1 IH]; cbn [app for_each].
  - now rewrite bind_ret.
  - rewrite bind_assoc. apply bind_ext. intros _. exact IH.
Qed.

(** X11: when processing the first favourite entries raises, the run ends
    there: the later entries are never visited, and the trace is the one
    produced up to the exception. *)
Theorem main_stops_at_first_exception stream_api pod_api kvs xs1 xs2 t
  (Hitems : lookup "Items" kvs = Some (JArr (xs1 ++ xs2)))
  (Hraise : for_each (process_fav stream_api pod_api) xs1 = (t, None)) :
  main stream_api pod_api (JObj kvs) = (t, None).
Proof.
  unfold main, main_with. cbn [index_str]. rewrite Hitems, bind_ret.
  cbn [py_iter]. rewrite bind_ret. fold (process_fav stream_api pod_api).
  rewrite for_each_app, Hraise. reflexivity.
Qed.

Lemma main_stops_at_first_exception_witness :
  main stream_api_ex pod_api_ex
    (JObj [("Items", JArr ([JObj [("List", JObj [("Items", JArr [JStr "x"])])]]
                           ++ [JObj [("List", JObj [("Items",
                                 JArr [JObj [("StationCell",
                                        cell_ex "s1" (Some "Station"))]])])]]))])
    = ([], None).
Proof.
  apply (main_stops_at_first_exception stream_api_ex pod_api_ex
    [("Items", JArr ([JObj [("List", JObj [("Items", JArr [JStr "x"])])]]
                     ++ [JObj [("List", JObj [("Items",
                           JArr [JObj [("StationCell",
                                  cell_ex "s1" (Some "Station"))]])])]]))]
    [JObj [("List", JObj [("Items", JArr [JStr "x"])])]]
    [JObj [("List", JObj [("Items",
             JArr [JObj [("StationCell", cell_ex "s1" (Some "Station"))]])])]]);
    reflexivity.
Defined.

(** ** At most one request of each kind per item *)

Lemma count_events_app p t1 t2 :
  count_events p (t1 ++ t2) = count_events p t1 + count_events p t2.
Proof. unfold count_events. now rewrite filter_app, length_app. Qed.

Lemma bounded_bind {A B} p n1 n2 (m : M A) (f : A -> M B) :
  bounded p n1 m -> (forall a, bounded p n2 (f a)) ->
  bounded p (n1 + n2) (bind m f).
Proof.
  unfold bounded. intros Hm Hf. rewrite fst_bind, count_events_app.
  destruct (snd m) as [a|].
  - specialize (Hf a). lia.
  - unfold count_events at 2. simpl. lia.
Qed.

Lemma bounded_quiet {A} p n (m : M A) : quiet m -> bounded p n m.
Proof. unfold bounded, quiet, count_events. intros ->. simpl. lia. Qed.

Lemma bounded_mono {A} p n n' (m : M A) : n <= n' -> bounded p n m -> bounded p n' m.
Proof. unfold bounded. lia. Qed.

Section Bounds.

Variable p : event -> bool.
Hypothesis p_print : forall v, p (Print v) = false.

Lemma bounded_print n v : bounded p n (print v).
Proof. unfold bounded, count_events. simpl. rewrite p_print. simpl. lia. Qed.

Lemma bounded_stream_id pod_api c content_info id :
  (forall id', bounded p c (get_pod_info pod_api id')) ->
  bounded p c (stream_id pod_api content_info id).
Proof.
  intros Hpod. unfold stream_id. destruct (truthy content_info);
    [|apply bounded_quiet, quiet_ret].
  apply (bounded_bind _ 0 c); [apply bounded_quiet, quiet_index_str|]. intros ty.
  destruct (eq_str ty "Audiobook"); [apply bounded_quiet, quiet_ret|].
  apply (bounded_bind _ 0 c); [apply bounded_quiet, quiet_index_str|]. intros ty2.
  apply (bounded_bind _ 0 c); [apply bounded_print|]. intros _.
  apply (bounded_bind _ 0 c); [apply bounded_quiet, quiet_index_str|]. intros ty3.
  destruct (negb (eq_str ty3 "Station")); [|apply bounded_quiet, quiet_ret].
  replace c with (c + 0) by lia.
  apply bounded_bind; [apply Hpod | intros; apply bounded_quiet, quiet_ret].
Qed.

Lemma bounded_process_item stream_api pod_api a b ite :
  (forall id, bounded p a (get_pod_info pod_api id)) ->
  (forall id, bounded p b (get_stream stream_api id)) ->
  bounded p (a + b) (process_item stream_api pod_api ite).
Proof.
  intros Hpod Hget. unfold process_item.
  apply (bounded_bind _ 0 (a + b)); [destruct ite; apply bounded_quiet; reflexivity|].
  intros kvs. cbv zeta.
  apply (bounded_bind _ 0 (a + b)); [apply bounded_quiet, quiet_py_get|]. intros id.
  destruct (negb (truthy id)); [apply bounded_quiet, quiet_ret|].
  unfold process_cell.
  apply (bounded_bind _ 0 (a + b)); [apply bounded_quiet, quiet_py_get|]. intros ci.
  apply (bounded_bind _ 0 (a + b)); [apply bounded_quiet, quiet_py_get|]. intros seo.
  destruct (negb (truthy seo)); [apply bounded_print|].
  apply (bounded_bind _ 0 (a + b)); [apply bounded_quiet, quiet_index_str|]. intros title.
  apply (bounded_bind _ 0 (a + b)); [apply bounded_print|]. intros _.
  apply bounded_bind; [apply bounded_stream_id, Hpod|]. intros [id'|];
    [|apply bounded_quiet, quiet_ret].
  replace b with (b + 0) by lia.
  apply bounded_bind; [apply Hget | intros; apply bounded_print].
Qed.

End Bounds.

(** X12: every child item, whatever the responses, makes at most one
    stream-resolution request and at most one episode lookup. *)
Theorem process_item_at_most_one_request_each stream_api pod_api ite :
  count_events is_stream_request (fst (process_item stream_api pod_api ite)) <= 1 /\
  count_events is_pod_request (fst (process_item stream_api pod_api ite)) <= 1.
Proof.
  split.
  - apply (bounded_process_item is_stream_request (fun _ => eq_refl) _ _ 0 1);
      intros id; unfold bounded, count_events;
      [rewrite get_pod_info_trace | rewrite get_stream_trace]; simpl; lia.
  - apply (bounded_process_item is_pod_request (fun _ => eq_refl) _ _ 1 0);
      intros id; unfold bounded, count_events;
      [rewrite get_pod_info_trace | rewrite get_stream_trace]; simpl; lia.
Qed.

(** ** List or Gallery *)

(** X13: when an entry's ["List"] is truthy, its Items are traversed, and the
    entry's ["Gallery"] is never looked at. *)
Theorem list_taken_over_gallery stream_api pod_api kvs lkvs ys
  (Hlist : lookup "List" kvs = Some (JObj lkvs))
  (Hne : lkvs <> [])
  (Hitems : lookup "Items" lkvs = Some (JArr ys)) :
  process_fav stream_api pod_api (JObj kvs) =
    for_each (process_item stream_api pod_api) ys.
Proof.
  unfold process_fav, process_fav_with. cbn [py_get]. rewrite Hlist, bind_ret.
  destruct lkvs as [|kv lkvs]; [contradiction|]. cbn [truthy negb].
  rewrite bind_ret. cbn [index_str]. rewrite Hitems, bind_ret.
  cbn [py_iter]. now rewrite bind_ret.
Qed.

Lemma list_taken_over_gallery_witness :
  process_fav stream_api_ex pod_api_ex
    (JObj [("List", JObj [("Items", JArr [])]); ("Gallery", JStr "unused")]) =
    for_each (process_item stream_api_ex pod_api_ex) [].
Proof.
  apply (list_taken_over_gallery stream_api_ex pod_api_ex
           [("List", JObj [("Items", JArr [])]); ("Gallery", JStr "unused")]
           [("Items", JArr [])] []); [reflexivity | discriminate | reflexivity].
Defined.

(** X14: when an entry's ["List"] is absent or falsy and its ["Gallery"] is
    a non-empty dict, the Gallery's Items are traversed. *)
Theorem gallery_used_without_list stream_api pod_api kvs gkvs ys
  (Hlist : truthy (get_or_none kvs "List") = false)
  (Hgallery : lookup "Gallery" kvs = Some (JObj gkvs))
  (Hne : gkvs <> [])
  (Hitems : lookup "Items" gkvs = Some (JArr ys)) :
  process_fav stream_api pod_api (JObj kvs) =
    for_each (process_item stream_api pod_api) ys.
Proof.
  unfold process_fav, process_fav_with. cbn [py_get].
  unfold get_or_none in Hlist.
  destruct (lookup "List" kvs) as [l|]; rewrite bind_ret; cbn [truthy] in *;
    rewrite ?Hlist; rewrite Hgallery, bind_ret;
    (destruct gkvs as [|kv gkvs]; [contradiction|]); cbn [truthy negb];
    cbn [index_str]; rewrite Hitems, bind_ret; cbn [py_iter]; now rewrite bind_ret.
Qed.

Lemma gallery_used_without_list_witness :
  process_fav stream_api_ex pod_api_ex
    (JObj [("Gallery", JObj [("Items", JArr [])])]) =
    for_each (process_item stream_api_ex pod_api_ex) [].
Proof.
  apply (gallery_used_without_list stream_api_ex pod_api_ex
           [("Gallery", JObj [("Items", JArr [])])]
           [("Items", JArr [])] []); [reflexivity | reflexivity | discriminate | reflexivity].
Defined.

(** ** Which key is the Cell *)

Lemma string_length_append (p s : string) :
  String.length (p ++ s)%string = String.length p + String.length s.
Proof. induction p as [|c p IH]; simpl; auto. Qed.

Lemma substring_after_prefix (p s : string) n :
  substring (String.length p) n (p ++ s)%string = substring 0 n s.
Proof. induction p as [|c p IH]; simpl; [reflexivity | exact IH]. Qed.

Lemma substring_whole (s : string) : substring 0 (String.length s) s = s.
Proof. induction s as [|c s IH]; simpl; [reflexivity | now rewrite IH]. Qed.

Lemma substring_split (s : string) k :
  k <= String.length s ->
  (substring 0 k s ++ substring k (String.length s - k) s)%string = s.
Proof.
  revert k. induction s as [|c s IH]; intros k Hk.
  - simpl in Hk. assert (k = 0) as -> by lia. reflexivity.
  - destruct k as [|k].
    + simpl. now rewrite substring_whole.
    + simpl in Hk |- *. f_equal. apply IH. lia.
Qed.

(** [s.endswith(suf)] holds exactly when [s] is some string followed by
    [suf]. *)
Lemma endswith_iff (s suf : string) :
  endswith s suf = true <-> exists p, s = (p ++ suf)%string.
Proof.
  unfold endswith. split.
  - intros H. apply andb_prop in H as [Hle Heq].
    apply Nat.leb_le in Hle. apply String.eqb_eq in Heq.
    exists (substring 0 (String.length s - String.length suf) s).
    pose proof (substring_split s (String.length s - String.length suf)
                  ltac:(lia)) as Hs.
    replace (String.length s - (String.length s - String.length suf))
      with (String.length suf) in Hs by lia.
    rewrite Heq in Hs. exact (eq_sym Hs).
  - intros [p ->]. rewrite string_length_append.
    apply andb_true_intro. split; [apply Nat.leb_le; lia|].
    replace (String.length p + String.length suf - String.length suf)
      with (String.length p) by lia.
    rewrite substring_after_prefix, substring_whole. apply String.eqb_refl.
Qed.

(** X15: the cell of an item is the value of its first key spelled
    [<prefix>Cell]; keys before it that do not end in ["Cell"] are passed
    over, and keys after it are never looked at. *)
Theorem cell_is_first_cell_suffixed_key pre p v post
  (Hpre : Forall (fun kv => forall q, fst kv <> (q ++ "Cell")%string) pre) :
  find_cell (pre ++ ((p ++ "Cell")%string, v) :: post) = v.
Proof.
  induction Hpre as [|[k w] pre Hk _ IH]; simpl.
  - assert (H : endswith (p ++ "Cell") "Cell" = true)
      by (apply endswith_iff; now exists p).
    now rewrite H.
  - destruct (endswith k "Cell") eqn:E; [|exact IH].
    apply endswith_iff in E as [q Hq]. exfalso. exact (Hk q Hq).
Qed.

Lemma cell_is_first_cell_suffixed_key_witness :
  find_cell [("ContainerNavigation", JNull); ("StationCell", JStr "a");
             ("PromptCell", JStr "b")] = JStr "a".
Proof.
  apply (cell_is_first_cell_suffixed_key [("ContainerNavigation", JNull)]
           "Station" (JStr "a") [("PromptCell", JStr "b")]).
  constructor; [|constructor]. intros q H. simpl in H.
  assert (E : endswith "ContainerNavigation" "Cell" = true)
    by (apply endswith_iff; now exists q).
  discriminate E.
Defined.
